(** * hector_quadrotor_controller: the pose controller's PID engine

    A shallow embedding of [pose_controller.cpp].  The C++ [double] is the
    IEEE 754 binary64 format; it is modelled by the Standard Library's
    [spec_float] (signed zeros, infinities, one quiet NaN, finite numbers as
    sign / mantissa / exponent) with the operations of [SpecFloat] taken at
    precision 53 and maximal exponent 1024, rounding to nearest even.
    Comparisons involving NaN are false, as in C++.

    A method that mutates a [state&] returns the new state next to its
    result; [period.toSec()] is passed as the double [dt]. *)

From Stdlib Require Import ZArith Bool List String Lia.
From Stdlib Require Import Floats.SpecFloat.
Import ListNotations.

(** ** Binary64 arithmetic *)

Definition double : Type := spec_float.

Module D.
Definition prec : Z := 53.
Definition emax : Z := 1024.

Definition add : double -> double -> double := SFadd prec emax.
Definition sub : double -> double -> double := SFsub prec emax.
Definition mul : double -> double -> double := SFmul prec emax.
Definition div : double -> double -> double := SFdiv prec emax.
Definition opp : double -> double := SFopp.
Definition abs : double -> double := SFabs.
Definition ltb : double -> double -> bool := SFltb.
Definition leb : double -> double -> bool := SFleb.
Definition eqb : double -> double -> bool := SFeqb.

(** The values of the binary64 format among the [spec_float]: a finite
    number has its canonical mantissa and exponent. *)
Definition valid : double -> bool := valid_binary prec emax.

(** [std::isfinite] *)
Definition isfinite (x : double) : bool :=
  match x with S754_zero _ | S754_finite _ _ _ => true | _ => false end.

(** [std::isnan] *)
Definition isnan (x : double) : bool :=
  match x with S754_nan => true | _ => false end.

(** [std::numeric_limits<double>::quiet_NaN()] *)
Definition quiet_NaN : double := S754_nan.

(** The literal [0.0], also [double()]. *)
Definition zero : double := S754_zero false.

(** Conversion of an [int] to [double] (exact for the integers used). *)
Definition of_int (n : Z) : double := binary_normalize prec emax n 0 false.
End D.

Declare Scope double_scope.
Delimit Scope double_scope with D.
Bind Scope double_scope with double.
Infix "+" := D.add : double_scope.
Infix "-" := D.sub : double_scope.
Infix "*" := D.mul : double_scope.
Infix "/" := D.div : double_scope.
Notation "- x" := (D.opp x) : double_scope.
Infix "<?" := D.ltb : double_scope.
Infix "<=?" := D.leb : double_scope.

(** ** Data model *)

(** [PoseController::parameters], one set per channel group. *)
Record parameters : Type := mk_parameters {
  enabled : bool;
  k_p : double;
  k_i : double;
  k_d : double;
  limit_i : double;
  limit_output : double
}.

(** [PoseController::state], one per channel. *)
Record state : Type := mk_state {
  state_p : double;
  state_i : double;
  state_d : double;
  state_derivative : double
}.

(** [PoseController::state::state()] *)
Definition state_init : state :=
  {| state_p := D.quiet_NaN;
     state_i := D.zero;
     state_d := D.quiet_NaN;
     state_derivative := D.quiet_NaN |}.

(** The defaults of [initParameters], used when the parameter server has
    no value for a key. *)
Definition default_parameters : parameters :=
  {| enabled := true;
     k_p := D.zero; k_i := D.zero; k_d := D.zero;
     limit_i := D.quiet_NaN;
     limit_output := D.quiet_NaN |}.

(** ** The PID step *)

Local Open Scope double_scope.

(** [checknan]: a NaN is replaced by [T()]. *)
Definition checknan (value : double) : double :=
  if D.isnan value then D.zero else value.

(** Lines 131-136: the integral error and its clamp. *)
Definition integrate (error dt : double) (st : state) (param : parameters) : double :=
  let i0 := state_i st + error * dt in
  if D.zero <? limit_i param then
    let i1 := if limit_i param <? i0 then limit_i param else i0 in
    if i1 <? - limit_i param then - limit_i param else i1
  else i0.

(** Lines 139-143: the differential error. *)
Definition differentiate (error derivative dt : double) (st : state) : double :=
  if (D.zero <? dt) && negb (D.isnan (state_p st))
       && negb (D.isnan (state_derivative st))
  then (error - state_p st) / dt + state_derivative st - derivative
  else - derivative.

(** Line 150: the raw output, from the values just stored in the state. *)
Definition raw_output (param : parameters) (p i d : double) : double :=
  k_p param * p + k_i param * i + k_d param * d.

(** Lines 151-156: the output clamp; the second component is the [int]
    [antiwindup]. *)
Definition clamp_output (param : parameters) (output : double) : double * Z :=
  if D.zero <? limit_output param then
    let '(o1, a1) :=
      if limit_i param <? output then (limit_i param, 1%Z) else (output, 0%Z) in
    if o1 <? - limit_i param then (- limit_i param, (-1)%Z) else (o1, a1)
  else (output, 0%Z).

(** Line 157: whether the anti-windup correction runs. *)
Definition antiwindup_applies (error dt : double) (antiwindup : Z) : bool :=
  negb (antiwindup =? 0)%Z && (D.zero <? error * dt * D.of_int antiwindup).

(** [PoseController::updatePID]: the returned output and the state after
    the call. *)
Definition updatePID (error derivative : double) (st : state)
    (param : parameters) (dt : double) : double * state :=
  if negb (enabled param) then (D.zero, st)
  else
    let i1 := integrate error dt st param in
    let d1 := differentiate error derivative dt st in
    let output := raw_output param error i1 d1 in
    let '(output', antiwindup) := clamp_output param output in
    let i2 := if antiwindup_applies error dt antiwindup
              then i1 - error * dt else i1 in
    (checknan output',
     {| state_p := error; state_i := i2; state_d := d1;
        state_derivative := derivative |}).

Local Close Scope double_scope.

(** ** The controller *)

(** [geometry_msgs::Vector3] and [geometry_msgs::Twist]. *)
Module geometry_msgs.
Record Vector3 : Type := mk_Vector3 { x : double; y : double; z : double }.
Record Twist : Type := mk_Twist { linear : Vector3; angular : Vector3 }.
End geometry_msgs.

(** The member [state_]: one PID state per channel. *)
Module state_.
Record t : Type := mk { x : state; y : state; z : state; yaw : state }.
End state_.

(** The member [parameters_]: the horizontal channels share [xy]. *)
Module parameters_.
Record t : Type := mk { xy : parameters; z : parameters; yaw : parameters }.
End parameters_.

(** [ros::Time], seconds and nanoseconds. *)
Module ros.
Record Time : Type := mk_Time { sec : N; nsec : N }.
End ros.

Record PoseController : Type := mk_PoseController {
  pid_state : state_.t;          (* state_ *)
  pid_parameters : parameters_.t; (* parameters_ *)
  start_time_ : ros.Time
}.

(** What one tick reads from the pose and velocity handles: the errors
    returned by the three [getError] calls, the measured twist and the
    measured yaw. *)
Record measurement : Type := mk_measurement {
  error_n : double;
  error_w : double;
  error_height : double;
  error_heading : double;
  twist : geometry_msgs.Twist;
  pose_yaw : double
}.

(** [PoseController::reset], statement by statement: the third assignment
    writes the slot [x] a second time. *)
Definition reset (c : PoseController) : PoseController :=
  let s := pid_state c in
  let s := state_.mk state_init (state_.y s) (state_.z s) (state_.yaw s) in
  let s := state_.mk (state_.x s) state_init (state_.z s) (state_.yaw s) in
  let s := state_.mk state_init (state_.y s) (state_.z s) (state_.yaw s) in
  let s := state_.mk (state_.x s) (state_.y s) (state_.z s) state_init in
  {| pid_state := s;
     pid_parameters := pid_parameters c;
     start_time_ := start_time_ c |}.

(** [PoseController::starting] *)
Definition starting (time : ros.Time) (c : PoseController) : PoseController :=
  let c := reset c in
  {| pid_state := pid_state c;
     pid_parameters := pid_parameters c;
     start_time_ := time |}.

(** [PoseController::stopping] *)
Definition stopping (time : ros.Time) (c : PoseController) : PoseController := c.

(** Lines 106-107, the rotation into body coordinates, with the arithmetic
    and the [cos] and [sin] it is computed with as parameters: the
    controller runs it on doubles with the C library's functions. *)
Section BodyFrame.
Context {T : Type}.
Variables (add mul : T -> T -> T) (opp : T -> T) (cos sin : T -> T).

Definition body_x (yaw command_n command_w : T) : T :=
  add (mul (cos yaw) command_n) (mul (sin yaw) command_w).

Definition body_y (yaw command_n command_w : T) : T :=
  add (mul (opp (sin yaw)) command_n) (mul (cos yaw) command_w).
End BodyFrame.

Section Update.
(** [cos] and [sin] of [<cmath>] on doubles. *)
Variables cos sin : double -> double.

(** [PoseController::update]: the twist handed to [velocity_.setCommand]
    and the controller after the tick.  The fields of the default-constructed
    [command] that are never assigned stay 0. *)
Definition update (m : measurement) (c : PoseController) (dt : double)
    : geometry_msgs.Twist * PoseController :=
  let s := pid_state c in
  let par := pid_parameters c in
  let v := twist m in
  let '(command_n, sx) :=
    updatePID (error_n m) (geometry_msgs.x (geometry_msgs.linear v))
              (state_.x s) (parameters_.xy par) dt in
  let '(command_w, sy) :=
    updatePID (error_w m) (geometry_msgs.y (geometry_msgs.linear v))
              (state_.y s) (parameters_.xy par) dt in
  let yaw := pose_yaw m in
  let linear_x := body_x D.add D.mul cos sin yaw command_n command_w in
  let linear_y := body_y D.add D.mul D.opp cos sin yaw command_n command_w in
  let '(linear_z, sz) :=
    updatePID (error_height m) (geometry_msgs.z (geometry_msgs.linear v))
              (state_.z s) (parameters_.z par) dt in
  let '(angular_z, syaw) :=
    updatePID (error_heading m) (geometry_msgs.z (geometry_msgs.angular v))
              (state_.yaw s) (parameters_.yaw par) dt in
  (geometry_msgs.mk_Twist
     (geometry_msgs.mk_Vector3 linear_x linear_y linear_z)
     (geometry_msgs.mk_Vector3 D.zero D.zero angular_z),
   {| pid_state := state_.mk sx sy sz syaw;
      pid_parameters := par;
      start_time_ := start_time_ c |}).
End Update.

(** A run of one channel: the ticks are (error, measured rate, dt). *)
Definition tick : Type := (double * double * double)%type.

Definition step (param : parameters) (st : state) (t : tick) : state :=
  let '(error, derivative, dt) := t in
  snd (updatePID error derivative st param dt).

Definition run (param : parameters) (st : state) (ticks : list tick) : state :=
  fold_left (step param) ticks st.

(** The [antiwindup] flag a call computes, and whether that call runs the
    correction of line 157. *)
Definition antiwindup_of (error derivative : double) (st : state)
    (param : parameters) (dt : double) : Z :=
  snd (clamp_output param
         (raw_output param error (integrate error dt st param)
                     (differentiate error derivative dt st))).

Definition antiwindup_runs (error derivative : double) (st : state)
    (param : parameters) (dt : double) : bool :=
  enabled param
  && antiwindup_applies error dt (antiwindup_of error derivative st param dt).

(** ** Concrete channels and controllers used below *)

(** Unit proportional gain, integral and output limits both 1. *)
Definition limited_parameters : parameters :=
  {| enabled := true;
     k_p := D.of_int 1; k_i := D.zero; k_d := D.zero;
     limit_i := D.of_int 1;
     limit_output := D.of_int 1 |}.

(** Unit proportional gain, an output limit of 1, and the integral limit
    left at its default. *)
Definition output_limited_parameters : parameters :=
  {| enabled := true;
     k_p := D.of_int 1; k_i := D.zero; k_d := D.zero;
     limit_i := D.quiet_NaN;
     limit_output := D.of_int 1 |}.

(** The saturation scenario: [limit_i = 1.0], [k_i = 1], no output limit;
    the other two gains are free. *)
Definition saturating_parameters (kp kd : double) : parameters :=
  {| enabled := true;
     k_p := kp; k_i := D.of_int 1; k_d := kd;
     limit_i := D.of_int 1;
     limit_output := D.quiet_NaN |}.

Definition saturating_tick (derivative : double) : tick :=
  (D.of_int 5, derivative, D.of_int 1).

(** A controller as constructed, with unit proportional gain on every
    channel, and a tick that measures a height error of 2. *)
Definition unit_gain : parameters :=
  {| enabled := true;
     k_p := D.of_int 1; k_i := D.zero; k_d := D.zero;
     limit_i := D.quiet_NaN;
     limit_output := D.quiet_NaN |}.

Definition constructed : PoseController :=
  {| pid_state := state_.mk state_init state_init state_init state_init;
     pid_parameters := parameters_.mk unit_gain unit_gain unit_gain;
     start_time_ := ros.mk_Time 0 0 |}.

Definition climbing : measurement :=
  {| error_n := D.zero; error_w := D.zero;
     error_height := D.of_int 2; error_heading := D.zero;
     twist := geometry_msgs.mk_Twist
                (geometry_msgs.mk_Vector3 D.zero D.zero D.zero)
                (geometry_msgs.mk_Vector3 D.zero D.zero D.zero);
     pose_yaw := D.zero |}.

(** The same channel with no output limit configured. *)
Definition without_output_limit (param : parameters) : parameters :=
  {| enabled := enabled param;
     k_p := k_p param; k_i := k_i param; k_d := k_d param;
     limit_i := limit_i param;
     limit_output := D.quiet_NaN |}.

(** The controller after one tick that saw the height error. *)
Definition flown (cos sin : double -> double) : PoseController :=
  snd (update cos sin climbing constructed (D.of_int 1)).

(** The double nearest to pi / 2, [0x1.921fb54442d18p+0]. *)
Definition M_PI_2 : double := S754_finite false 7074237752028440 (-52).

(** The C library's [cos] and [sin] at the two yaw angles used below.  At
    a zero the C standard fixes [cos = 1] and [sin] the same zero; at
    [M_PI_2] the library returns [sin = 1] and
    [cos = 0x1.1a62633145c07p-54], about 6.12e-17.  No other argument is
    looked up; the table answers NaN there. *)
Definition libm_cos (x : double) : double :=
  match x with
  | S754_zero _ => D.of_int 1
  | _ => if D.eqb x M_PI_2
         then S754_finite false 4967757600021511 (-106)
         else D.quiet_NaN
  end.

Definition libm_sin (x : double) : double :=
  match x with
  | S754_zero _ => x
  | _ => if D.eqb x M_PI_2 then D.of_int 1 else D.quiet_NaN
  end.

(** A controller whose horizontal gain is the finite double [2^1023]. *)
Definition stiff_gain : parameters :=
  {| enabled := true;
     k_p := D.of_int (2 ^ 1023); k_i := D.zero; k_d := D.zero;
     limit_i := D.quiet_NaN;
     limit_output := D.quiet_NaN |}.

Definition stiff : PoseController :=
  {| pid_state := state_.mk state_init state_init state_init state_init;
     pid_parameters := parameters_.mk stiff_gain unit_gain unit_gain;
     start_time_ := ros.mk_Time 0 0 |}.

(** A tick that measures the horizontal position error [(error_n, error_w)]
    at the yaw angle [yaw], the vehicle at rest. *)
Definition displaced (error_n error_w yaw : double) : measurement :=
  {| error_n := error_n; error_w := error_w;
     error_height := D.zero; error_heading := D.zero;
     twist := geometry_msgs.mk_Twist
                (geometry_msgs.mk_Vector3 D.zero D.zero D.zero)
                (geometry_msgs.mk_Vector3 D.zero D.zero D.zero);
     pose_yaw := yaw |}.

(** ** Parameter loading *)

(** [ros::NodeHandle] as the controller uses it: a namespace of the
    parameter server that is asked for a [bool] or a [double] under a key
    and answers with the stored value when there is one, and the child
    namespace of a name. *)
Section ParameterServer.
Context {NodeHandle : Type}.
Variable getParam_bool : NodeHandle -> string -> option bool.
Variable getParam_double : NodeHandle -> string -> option double.
Variable child : NodeHandle -> string -> NodeHandle.

(** [getParam(key, value = fallback)]: the argument assigns the fallback,
    the call overwrites it when the key is found. *)
Definition getParam {A : Type} (lookup : NodeHandle -> string -> option A)
    (param_nh : NodeHandle) (key : string) (fallback : A) : A :=
  match lookup param_nh key with
  | Some v => v
  | None => fallback
  end.

(** [PoseController::initParameters] *)
Definition initParameters (param_nh : NodeHandle) : parameters :=
  {| enabled := getParam getParam_bool param_nh "enabled" true;
     k_p := getParam getParam_double param_nh "k_p" D.zero;
     k_i := getParam getParam_double param_nh "k_i" D.zero;
     k_d := getParam getParam_double param_nh "k_d" D.zero;
     limit_i := getParam getParam_double param_nh "limit_i" D.quiet_NaN;
     limit_output :=
       getParam getParam_double param_nh "limit_output" D.quiet_NaN |}.

(** [PoseController::init], the part that touches the PID engine: the
    three parameter sets are read from the namespaces [xy], [z] and [yaw]
    of the controller's node handle, and the call reports success. *)
Definition init (controller_nh : NodeHandle) (c : PoseController)
    : bool * PoseController :=
  (true,
   {| pid_state := pid_state c;
      pid_parameters :=
        parameters_.mk (initParameters (child controller_nh "xy"))
                       (initParameters (child controller_nh "z"))
                       (initParameters (child controller_nh "yaw"));
      start_time_ := start_time_ c |}).
End ParameterServer.

(** The integral a channel without limits accumulates: the plain sum of
    [error * dt] over the ticks. *)
Definition running_sum (i : double) (ticks : list tick) : double :=
  fold_left (fun acc (t : tick) => let '(error, _, dt) := t in
                                   D.add acc (D.mul error dt))
            ticks i.

(** A channel with a negative integral limit and an output limit. *)
Definition negative_limit_parameters : parameters :=
  {| enabled := true;
     k_p := D.of_int 1; k_i := D.zero; k_d := D.zero;
     limit_i := D.of_int (-1);
     limit_output := D.of_int 1 |}.

(** A channel that is switched off. *)
Definition switched_off : parameters :=
  {| enabled := false;
     k_p := D.of_int 1; k_i := D.of_int 1; k_d := D.zero;
     limit_i := D.quiet_NaN;
     limit_output := D.quiet_NaN |}.

(** A parameter server that stores nothing. *)
Definition empty_server : unit -> string -> option double := fun _ _ => None.
Definition empty_server_bool : unit -> string -> option bool := fun _ _ => None.

(** * Properties *)

(** ** Comparisons of doubles *)

Ltac cmp_split :=
  repeat match goal with
  | |- context [Z.compare ?a ?b] => destruct (Z.compare_spec a b)
  | |- context [Pos.compare_cont Eq ?a ?b] =>
      change (Pos.compare_cont Eq a b) with (Pos.compare a b);
      destruct (Pos.compare_spec a b)
  end.

Ltac float_cases :=
  unfold D.ltb, D.leb, D.abs, D.opp, D.isnan, D.zero, SFltb, SFleb in *;
  cbn [SFcompare SFabs SFopp negb CompOpp] in *;
  cmp_split; cbn [CompOpp] in *;
  try subst; try reflexivity; try discriminate; try lia.

Ltac by_float_cases x y :=
  destruct x as [[]|[]| |[] ? ?], y as [[]|[]| |[] ? ?]; float_cases.

Lemma ltb_nan_l x : D.ltb D.quiet_NaN x = false.
Proof. reflexivity. Qed.

Lemma ltb_nan_r x : D.ltb x D.quiet_NaN = false.
Proof. destruct x; reflexivity. Qed.

Lemma isnan_eq x : D.isnan x = true -> x = D.quiet_NaN.
Proof. destruct x; simpl; intros H; try discriminate; reflexivity. Qed.

Lemma add_nan_l x : D.add D.quiet_NaN x = D.quiet_NaN.
Proof. reflexivity. Qed.

Lemma add_nan_r x : D.add x D.quiet_NaN = D.quiet_NaN.
Proof. destruct x; reflexivity. Qed.

Lemma sub_nan_l x : D.sub D.quiet_NaN x = D.quiet_NaN.
Proof. reflexivity. Qed.

Lemma mul_nan_l x : D.mul D.quiet_NaN x = D.quiet_NaN.
Proof. reflexivity. Qed.

(** A value that is neither above [L] nor below [-L], for a positive [L],
    has magnitude at most [L] unless it is NaN. *)
Lemma within_limit L v :
  D.ltb D.zero L = true -> D.isnan v = false ->
  D.ltb L v = false -> D.ltb v (D.opp L) = false ->
  D.leb (D.abs v) L = true.
Proof. intros HL Hv H1 H2. revert HL Hv H1 H2. by_float_cases L v. Qed.

Lemma limit_within_itself L :
  D.ltb D.zero L = true ->
  D.ltb L (D.opp L) = false /\ D.leb (D.abs L) L = true /\
  D.leb (D.abs (D.opp L)) L = true.
Proof.
  destruct L as [[]|[]| |[] ? ?]; float_cases; repeat split; float_cases.
Qed.

(** The two output clamps in sequence, followed by [checknan]. *)
Lemma clamp_twice_bound L o :
  let o1 := if D.ltb L o then L else o in
  let o2 := if D.ltb o1 (D.opp L) then D.opp L else o1 in
  D.ltb (D.abs L) (D.abs (checknan o2)) = false /\
  (D.isnan L = false -> D.leb (D.abs (checknan o2)) (D.abs L) = true).
Proof.
  unfold checknan. by_float_cases L o.
  all: try (split; [|intros _]); float_cases.
Qed.

(** ** The shape of one call *)

Lemma updatePID_enabled error derivative st param dt :
  enabled param = true ->
  updatePID error derivative st param dt =
  (let i1 := integrate error dt st param in
   let d1 := differentiate error derivative dt st in
   let c := clamp_output param (raw_output param error i1 d1) in
   (checknan (fst c),
    {| state_p := error;
       state_i := if antiwindup_applies error dt (snd c)
                  then D.sub i1 (D.mul error dt) else i1;
       state_d := d1;
       state_derivative := derivative |})).
Proof.
  intros H. unfold updatePID. rewrite H. cbn [negb].
  destruct (clamp_output _ _); reflexivity.
Qed.

Lemma checknan_not_nan v : D.isnan (checknan v) = false.
Proof. destruct v; reflexivity. Qed.

Lemma clamp_output_unlimited param o :
  D.ltb D.zero (limit_output param) = false -> clamp_output param o = (o, 0%Z).
Proof. intros H. unfold clamp_output. rewrite H. reflexivity. Qed.

Lemma clamp_output_nan_limit_i param o :
  D.isnan (limit_i param) = true -> clamp_output param o = (o, 0%Z).
Proof.
  intros H. apply isnan_eq in H. unfold clamp_output. rewrite H.
  destruct (D.ltb D.zero (limit_output param)); [|reflexivity].
  rewrite ltb_nan_l. cbn [D.opp SFopp D.quiet_NaN]. 
  change S754_nan with D.quiet_NaN. rewrite ltb_nan_r. reflexivity.
Qed.

Lemma antiwindup_applies_0 error dt : antiwindup_applies error dt 0 = false.
Proof. reflexivity. Qed.

(** The integral after lines 131-136. *)
Lemma integrate_bound error dt st param :
  D.ltb D.zero (limit_i param) = true ->
  D.isnan (D.add (state_i st) (D.mul error dt)) = false ->
  D.leb (D.abs (integrate error dt st param)) (limit_i param) = true.
Proof.
  intros HL Hn. unfold integrate. rewrite HL. cbv zeta.
  destruct (limit_within_itself _ HL) as (H1 & H2 & H3).
  set (i0 := D.add (state_i st) (D.mul error dt)) in *.
  destruct (D.ltb (limit_i param) i0) eqn:E1.
  - rewrite H1. exact H2.
  - destruct (D.ltb i0 (D.opp (limit_i param))) eqn:E2.
    + exact H3.
    + now apply within_limit.
Qed.

Lemma integrate_nan error dt st param :
  D.isnan (D.add (state_i st) (D.mul error dt)) = true ->
  integrate error dt st param = D.quiet_NaN.
Proof.
  intros H. apply isnan_eq in H. unfold integrate. rewrite H.
  destruct (D.ltb D.zero (limit_i param)); [|reflexivity].
  rewrite ltb_nan_r, ltb_nan_l. reflexivity.
Qed.

Lemma updatePID_disabled error derivative st param dt :
  enabled param = false ->
  updatePID error derivative st param dt = (D.zero, st).
Proof. intros H. unfold updatePID. now rewrite H. Qed.

(** One tick, channel by channel. *)
Lemma update_channels cos sin m c dt :
  update cos sin m c dt =
  (let n := updatePID (error_n m)
              (geometry_msgs.x (geometry_msgs.linear (twist m)))
              (state_.x (pid_state c)) (parameters_.xy (pid_parameters c)) dt in
   let w := updatePID (error_w m)
              (geometry_msgs.y (geometry_msgs.linear (twist m)))
              (state_.y (pid_state c)) (parameters_.xy (pid_parameters c)) dt in
   let h := updatePID (error_height m)
              (geometry_msgs.z (geometry_msgs.linear (twist m)))
              (state_.z (pid_state c)) (parameters_.z (pid_parameters c)) dt in
   let a := updatePID (error_heading m)
              (geometry_msgs.z (geometry_msgs.angular (twist m)))
              (state_.yaw (pid_state c)) (parameters_.yaw (pid_parameters c)) dt in
   (geometry_msgs.mk_Twist
      (geometry_msgs.mk_Vector3
         (body_x D.add D.mul cos sin (pose_yaw m) (fst n) (fst w))
         (body_y D.add D.mul D.opp cos sin (pose_yaw m) (fst n) (fst w))
         (fst h))
      (geometry_msgs.mk_Vector3 D.zero D.zero (fst a)),
    {| pid_state := state_.mk (snd n) (snd w) (snd h) (snd a);
       pid_parameters := pid_parameters c;
       start_time_ := start_time_ c |})).
Proof.
  unfold update. cbv zeta.
  repeat match goal with
         | |- context [updatePID ?e ?d ?s ?p ?t] =>
             destruct (updatePID e d s p t)
         end.
  reflexivity.
Qed.

(** ** Exact binary64 products and sums *)

Lemma digits2_shift (m : positive) (n : nat) :
  Zpos (digits2_pos (Nat.iter n xO m)) = (Zpos (digits2_pos m) + Z.of_nat n)%Z.
Proof.
  induction n as [|n IH].
  - cbn. lia.
  - change (Nat.iter (S n) xO m) with (xO (Nat.iter n xO m)).
    cbn [digits2_pos]. rewrite Pos2Z.inj_succ, IH. lia.
Qed.

(** Rounding the product of 1.0 and a canonical mantissa shifts the 52
    appended zero bits out again, exactly. *)
Lemma round_times_one s m e :
  D.valid (S754_finite s m e) = true ->
  binary_round_aux D.prec D.emax s (Zpos (Nat.iter 52 xO m)) (-52 + e) loc_Exact
  = S754_finite s m e.
Proof.
  unfold D.valid, valid_binary, bounded, canonical_mantissa.
  intros H. apply andb_true_iff in H. destruct H as [Hc Hb].
  apply Z.eqb_eq in Hc.
  unfold binary_round_aux.
  assert (F : fexp D.prec D.emax
                (Zdigits2 (Zpos (Nat.iter 52 xO m)) + (-52 + e)) = e).
  { cbn [Zdigits2]. rewrite digits2_shift.
    replace (Zpos (digits2_pos m) + Z.of_nat 52 + (-52 + e))%Z
      with (Zpos (digits2_pos m) + e)%Z by lia. exact Hc. }
  assert (S1 : shr_fexp D.prec D.emax (Zpos (Nat.iter 52 xO m)) (-52 + e)
                loc_Exact
              = (Build_shr_record (Zpos m) false false, e)).
  { unfold shr_fexp. rewrite F.
    replace (e - (-52 + e))%Z with 52%Z by lia.
    cbn [shr shr_record_of_loc iter_pos shr_1 Nat.iter orb].
    f_equal. lia. }
  assert (S2 : shr_fexp D.prec D.emax (Zpos m) e loc_Exact
              = (Build_shr_record (Zpos m) false false, e)).
  { unfold shr_fexp. cbn [Zdigits2]. rewrite Hc, Z.sub_diag. reflexivity. }
  rewrite S1. cbn [shr_m loc_of_shr_record round_nearest_even].
  rewrite S2. cbn [shr_m]. rewrite Hb. reflexivity.
Qed.

Lemma one_times x : D.valid x = true -> D.mul (D.of_int 1) x = x.
Proof.
  destruct x as [[]|[]| |s m e]; try reflexivity.
  intros H. change (D.of_int 1) with (S754_finite false 4503599627370496 (-52)).
  unfold D.mul, SFmul.
  change (Pos.mul 4503599627370496 m) with (Nat.iter 52 xO m).
  replace (xorb false s) with s by (destruct s; reflexivity).
  now apply round_times_one.
Qed.

Lemma zero_times_finite z x :
  D.abs z = D.zero -> D.isfinite x = true -> D.abs (D.mul z x) = D.zero.
Proof.
  destruct z as [[]|[]| |[] ? ?], x as [[]|[]| |[] ? ?];
    cbn; intros; try discriminate; reflexivity.
Qed.

Lemma eqb_plus_zero_r x z :
  D.isnan x = false -> D.abs z = D.zero -> D.eqb (D.add x z) x = true.
Proof.
  unfold D.eqb, SFeqb.
  destruct x as [[]|[]| |[] m e], z as [[]|[]| |[] ? ?];
    cbn; intros; try discriminate; try reflexivity;
    rewrite Z.compare_refl, Pos.compare_cont_refl; reflexivity.
Qed.

Lemma eqb_zero_plus z x :
  D.isnan x = false -> D.abs z = D.zero -> D.eqb (D.add z x) x = true.
Proof.
  unfold D.eqb, SFeqb.
  destruct x as [[]|[]| |[] m e], z as [[]|[]| |[] ? ?];
    cbn; intros; try discriminate; try reflexivity;
    rewrite Z.compare_refl, Pos.compare_cont_refl; reflexivity.
Qed.

Lemma finite_not_nan x : D.isfinite x = true -> D.isnan x = false.
Proof. destruct x; cbn; intros; try discriminate; reflexivity. Qed.

Lemma abs_opp x : D.abs (D.opp x) = D.abs x.
Proof. destruct x; reflexivity. Qed.

(** ** The specification's properties *)

(** C6. A disabled channel: whatever the error, the measured rate, the
    period and the stored state, [updatePID] returns exactly 0 and the
    state it leaves is the state it was given, all four fields. *)
Theorem disabled_channel_is_inert :
  forall (error derivative dt : double) (st : state) (param : parameters),
    enabled param = false ->
    updatePID error derivative st param dt = (D.zero, st).
Proof.
  intros error derivative dt st param H. now apply updatePID_disabled.
Qed.

Lemma disabled_channel_is_inert_witness :
  updatePID (D.of_int 5) (D.of_int 3)
            (mk_state (D.of_int 2) (D.of_int 7) D.quiet_NaN (D.of_int 1))
            (mk_parameters false (D.of_int 1) (D.of_int 1) (D.of_int 1)
                           (D.of_int 1) (D.of_int 1))
            (D.of_int 1)
  = (D.zero, mk_state (D.of_int 2) (D.of_int 7) D.quiet_NaN (D.of_int 1)).
Proof.
  refine (disabled_channel_is_inert _ _ _ _ _ _). vm_compute; reflexivity.
Defined.

(** C4. The value returned by [updatePID] is never NaN, for every error,
    measured rate, period (of any sign, NaN included), parameter set and
    stored state, the freshly reset state among them: the returned value
    is [checknan] of the clamped output, which is 0 when that is NaN. *)
Theorem updatePID_never_returns_nan :
  forall (error derivative dt : double) (st : state) (param : parameters),
    D.isnan (fst (updatePID error derivative st param dt)) = false /\
    D.isnan (fst (updatePID error derivative state_init param dt)) = false /\
    fst (updatePID error derivative st param dt) =
      (if enabled param then
         let o := fst (clamp_output param
                         (raw_output param error (integrate error dt st param)
                            (differentiate error derivative dt st))) in
         if D.isnan o then D.zero else o
       else D.zero).
Proof.
  assert (N : forall error derivative dt st param,
             D.isnan (fst (updatePID error derivative st param dt)) = false).
  { intros error derivative dt st param.
    destruct (enabled param) eqn:E.
    - rewrite updatePID_enabled by exact E. apply checknan_not_nan.
    - rewrite updatePID_disabled by exact E. reflexivity. }
  intros error derivative dt st param. repeat split; try apply N.
  destruct (enabled param) eqn:E.
  - rewrite updatePID_enabled by exact E. reflexivity.
  - rewrite updatePID_disabled by exact E. reflexivity.
Qed.

(** C3. On an enabled channel with a positive [limit_output], the returned
    output never exceeds [limit_i] in magnitude, whatever the error, the
    measured rate, the period and the stored state: [|limit_i| < |output|]
    is false, and when [limit_i] is a number, [|output| <= |limit_i|].
    The bound is [limit_i], the limit both clamp tests and both clamp
    targets use; [limit_output] only gates the clamp. *)
Theorem output_bounded_by_limit_i :
  forall (error derivative dt : double) (st : state) (param : parameters),
    enabled param = true ->
    D.ltb D.zero (limit_output param) = true ->
    let output := fst (updatePID error derivative st param dt) in
    D.ltb (D.abs (limit_i param)) (D.abs output) = false /\
    (D.isnan (limit_i param) = false ->
     D.leb (D.abs output) (D.abs (limit_i param)) = true).
Proof.
  intros error derivative dt st param He Hl. cbv zeta.
  rewrite updatePID_enabled by exact He. cbn [fst].
  unfold clamp_output. rewrite Hl.
  set (o := raw_output _ _ _ _).
  pose proof (clamp_twice_bound (limit_i param) o) as B. cbv zeta in B.
  destruct (D.ltb (limit_i param) o); cbn [fst] in *;
    destruct (D.ltb _ (D.opp (limit_i param))); cbn [fst]; exact B.
Qed.

Lemma output_bounded_by_limit_i_witness :
  let output :=
    fst (updatePID (D.of_int 5) D.zero state_init limited_parameters (D.of_int 1)) in
  D.ltb (D.abs (limit_i limited_parameters)) (D.abs output) = false /\
  (D.isnan (limit_i limited_parameters) = false ->
   D.leb (D.abs output) (D.abs (limit_i limited_parameters)) = true).
Proof.
  refine (output_bounded_by_limit_i (D.of_int 5) D.zero (D.of_int 1)
            state_init limited_parameters _ _);
    vm_compute; reflexivity.
Defined.

(** C5. The derivative term of an enabled channel.  When [dt > 0] and
    neither the stored error [p] nor the stored measured rate is NaN, the
    call sets [d = (error - p) / dt + derivative_prev - measured_rate];
    in every other case it sets [d = -measured_rate], an expression without
    a division: so on the first tick after a reset, and so for [dt = 0] of
    either sign. *)
Theorem derivative_term :
  forall (error derivative dt : double) (st : state) (param : parameters),
    enabled param = true ->
    (D.ltb D.zero dt = true ->
     D.isnan (state_p st) = false ->
     D.isnan (state_derivative st) = false ->
     state_d (snd (updatePID error derivative st param dt)) =
       D.sub (D.add (D.div (D.sub error (state_p st)) dt) (state_derivative st))
             derivative) /\
    (D.ltb D.zero dt = false \/ D.isnan (state_p st) = true
       \/ D.isnan (state_derivative st) = true ->
     state_d (snd (updatePID error derivative st param dt)) = D.opp derivative) /\
    state_d (snd (updatePID error derivative state_init param dt)) =
      D.opp derivative /\
    (forall s : bool,
       state_d (snd (updatePID error derivative st param (S754_zero s))) =
         D.opp derivative).
Proof.
  intros error derivative dt st param He.
  assert (E : forall st' dt',
             state_d (snd (updatePID error derivative st' param dt')) =
             differentiate error derivative dt' st').
  { intros st' dt'. rewrite updatePID_enabled by exact He. reflexivity. }
  rewrite !E. repeat split.
  - intros H1 H2 H3. unfold differentiate. rewrite H1, H2, H3. reflexivity.
  - intros H. unfold differentiate.
    destruct H as [H | [H | H]]; rewrite H; cbn [negb andb];
      rewrite ?andb_false_r; reflexivity.
  - unfold differentiate. cbn [state_init state_p D.isnan D.quiet_NaN negb].
    rewrite andb_false_r. reflexivity.
  - intros s. rewrite E. reflexivity.
Qed.

Lemma derivative_term_witness :
  state_d (snd (updatePID (D.of_int 1) D.zero
                          (mk_state (D.of_int 2) (D.of_int 2) D.zero D.zero)
                          unit_gain (D.of_int 1))) =
    D.sub (D.add (D.div (D.sub (D.of_int 1) (D.of_int 2)) (D.of_int 1)) D.zero)
          D.zero.
Proof.
  refine (proj1 (derivative_term (D.of_int 1) D.zero (D.of_int 1)
                   (mk_state (D.of_int 2) (D.of_int 2) D.zero D.zero)
                   unit_gain _) _ _ _);
    vm_compute; reflexivity.
Defined.

(** ** Runs of a channel *)

Lemma run_app param st ticks t :
  run param st (ticks ++ [t]) = step param (run param st ticks) t.
Proof. unfold run. rewrite fold_left_app. reflexivity. Qed.

Lemma step_state_i error derivative dt st param :
  enabled param = true ->
  state_i (step param st (error, derivative, dt)) =
    if antiwindup_runs error derivative st param dt
    then D.sub (integrate error dt st param) (D.mul error dt)
    else integrate error dt st param.
Proof.
  intros H. unfold step, antiwindup_runs, antiwindup_of.
  rewrite updatePID_enabled by exact H. rewrite H. reflexivity.
Qed.

Lemma no_output_limit_no_antiwindup error derivative st param dt :
  D.ltb D.zero (limit_output param) = false ->
  antiwindup_runs error derivative st param dt = false.
Proof.
  intros H. unfold antiwindup_runs, antiwindup_of.
  rewrite clamp_output_unlimited by exact H. cbn [snd].
  rewrite antiwindup_applies_0. apply andb_false_r.
Qed.

(** C2, as stated, fails.  With [limit_i = limit_output = 1] and unit
    proportional gain, one call with error 5 and [dt = 1] on a fresh state
    clamps the integral to 1, clamps the output, and the anti-windup
    correction then leaves [state.i = 1 - 5 = -4].  And with no output
    limit at all, one call with a NaN error leaves [state.i] NaN, which is
    not [<= limit_i]. *)
Lemma integral_limit_exceeded :
  (enabled limited_parameters = true /\
   D.ltb D.zero (limit_i limited_parameters) = true /\
   state_i (run limited_parameters state_init
                [(D.of_int 5, D.zero, D.of_int 1)]) = D.of_int (-4) /\
   D.leb (D.abs (state_i (run limited_parameters state_init
                              [(D.of_int 5, D.zero, D.of_int 1)])))
         (limit_i limited_parameters) = false) /\
  (D.ltb D.zero (limit_i (saturating_parameters D.zero D.zero)) = true /\
   D.leb (D.abs (state_i (run (saturating_parameters D.zero D.zero) state_init
                              [(D.quiet_NaN, D.zero, D.of_int 1)])))
         (limit_i (saturating_parameters D.zero D.zero)) = false).
Proof. vm_compute. repeat split. Qed.

(** C2, amended.  On an enabled channel with [limit_i > 0], after every
    call of every sequence of calls in which the integral sum
    [i + error * dt] is not NaN and the anti-windup correction of line 157
    does not run, [|state.i| <= limit_i]. *)
Theorem integral_within_limit_without_antiwindup :
  forall (param : parameters) (st0 : state) (ticks : list tick)
         (error derivative dt : double),
    enabled param = true ->
    D.ltb D.zero (limit_i param) = true ->
    D.isnan (D.add (state_i (run param st0 ticks)) (D.mul error dt)) = false ->
    antiwindup_runs error derivative (run param st0 ticks) param dt = false ->
    D.leb (D.abs (state_i (run param st0 (ticks ++ [(error, derivative, dt)]))))
          (limit_i param) = true.
Proof.
  intros param st0 ticks error derivative dt He HL Hn Ha.
  rewrite run_app, step_state_i by exact He. rewrite Ha.
  now apply integrate_bound.
Qed.

Lemma integral_within_limit_without_antiwindup_witness :
  D.leb (D.abs (state_i (run (saturating_parameters D.zero D.zero) state_init
                             ([saturating_tick D.zero]
                                ++ [(D.of_int 5, D.zero, D.of_int 1)]))))
        (limit_i (saturating_parameters D.zero D.zero)) = true.
Proof.
  refine (integral_within_limit_without_antiwindup
            (saturating_parameters D.zero D.zero) state_init
            [saturating_tick D.zero] (D.of_int 5) D.zero (D.of_int 1) _ _ _ _);
    vm_compute; reflexivity.
Defined.

(** C8. The saturation scenario: a freshly reset, enabled channel with
    [limit_i = 1.0], [k_i = 1] and no output limit, ticked repeatedly with
    error 5 and [dt = 1].  Whatever the other gains and the measured rates,
    [state.i] is exactly 1.0 after the first call and after every later
    one. *)
Theorem integral_saturates_at_one :
  forall (kp kd : double) (r : double) (rates : list double),
    state_i (run (saturating_parameters kp kd) state_init
                 (map saturating_tick (r :: rates))) = D.of_int 1.
Proof.
  intros kp kd.
  assert (S : forall st r,
             state_i st = D.zero \/ state_i st = D.of_int 1 ->
             state_i (step (saturating_parameters kp kd) st (saturating_tick r))
             = D.of_int 1).
  { intros st r H. unfold saturating_tick.
    rewrite step_state_i by reflexivity.
    rewrite no_output_limit_no_antiwindup by reflexivity.
    unfold integrate. destruct H as [H | H]; rewrite H; vm_compute; reflexivity. }
  assert (K : forall rates st,
             state_i st = D.of_int 1 ->
             state_i (run (saturating_parameters kp kd) st
                          (map saturating_tick rates)) = D.of_int 1).
  { induction rates as [|r rates IH]; intros st H; [exact H|].
    cbn [map run fold_left]. apply IH. apply S. now right. }
  intros r rates. cbn [map run fold_left]. apply K. apply S. now left.
Qed.

(** C9. A channel whose [limit_i] is NaN, the default of an absent
    parameter: no call ever clamps the output or runs the anti-windup
    correction, so a positive [limit_output] changes nothing, the call
    returns what it returns with no output limit configured; and the
    returned output does exceed [limit_output]: with unit gain and
    [limit_output = 1], an error of 5 returns 5. *)
Theorem output_limit_needs_limit_i :
  (forall (error derivative dt : double) (st : state) (param : parameters),
     enabled param = true ->
     D.isnan (limit_i param) = true ->
     antiwindup_of error derivative st param dt = 0%Z /\
     antiwindup_runs error derivative st param dt = false /\
     updatePID error derivative st param dt =
       updatePID error derivative st (without_output_limit param) dt) /\
  (D.ltb D.zero (limit_output output_limited_parameters) = true /\
   D.isnan (limit_i output_limited_parameters) = true /\
   fst (updatePID (D.of_int 5) D.zero state_init output_limited_parameters
                  (D.of_int 1)) = D.of_int 5 /\
   D.ltb (limit_output output_limited_parameters)
         (D.abs (fst (updatePID (D.of_int 5) D.zero state_init
                                output_limited_parameters (D.of_int 1)))) = true).
Proof.
  split; [|vm_compute; repeat split].
  intros error derivative dt st param He Hn.
  assert (A : antiwindup_of error derivative st param dt = 0%Z).
  { unfold antiwindup_of. now rewrite clamp_output_nan_limit_i. }
  repeat split.
  - exact A.
  - unfold antiwindup_runs. rewrite A, antiwindup_applies_0. apply andb_false_r.
  - rewrite !updatePID_enabled by exact He. cbv zeta.
    rewrite clamp_output_nan_limit_i by exact Hn.
    rewrite (clamp_output_unlimited (without_output_limit param))
      by reflexivity.
    reflexivity.
Qed.

Lemma output_limit_needs_limit_i_witness :
  antiwindup_of (D.of_int 5) D.zero state_init output_limited_parameters
                (D.of_int 1) = 0%Z /\
  antiwindup_runs (D.of_int 5) D.zero state_init output_limited_parameters
                  (D.of_int 1) = false /\
  updatePID (D.of_int 5) D.zero state_init output_limited_parameters (D.of_int 1) =
    updatePID (D.of_int 5) D.zero state_init
              (without_output_limit output_limited_parameters) (D.of_int 1).
Proof.
  refine (proj1 output_limit_needs_limit_i (D.of_int 5) D.zero (D.of_int 1)
            state_init output_limited_parameters _ _);
    vm_compute; reflexivity.
Defined.

(** C10. Only the returned output is sanitised, never the stored state.
    On an enabled channel one call with a NaN error leaves [state.i] NaN;
    and once [state.i] is NaN it is NaN after every later call, whatever
    the errors, measured rates, periods and parameters. *)
Theorem nan_integral_is_permanent :
  (forall (derivative dt : double) (st : state) (param : parameters),
     enabled param = true ->
     D.isnan (state_i (snd (updatePID D.quiet_NaN derivative st param dt))) = true) /\
  (forall (error derivative dt : double) (st : state) (param : parameters),
     D.isnan (state_i st) = true ->
     D.isnan (state_i (snd (updatePID error derivative st param dt))) = true) /\
  (forall (param : parameters) (ticks : list tick) (st : state),
     D.isnan (state_i st) = true ->
     D.isnan (state_i (run param st ticks)) = true).
Proof.
  assert (U : forall error derivative dt st param,
             enabled param = true ->
             D.isnan (D.add (state_i st) (D.mul error dt)) = true ->
             D.isnan (state_i (snd (updatePID error derivative st param dt))) = true).
  { intros error derivative dt st param He Hn.
    rewrite updatePID_enabled by exact He. cbn [snd state_i].
    rewrite integrate_nan by exact Hn.
    destruct (antiwindup_applies _ _ _); reflexivity. }
  assert (P : forall error derivative dt st param,
             D.isnan (state_i st) = true ->
             D.isnan (state_i (snd (updatePID error derivative st param dt))) = true).
  { intros error derivative dt st param Hn.
    destruct (enabled param) eqn:He.
    - apply U; [exact He|]. apply isnan_eq in Hn. rewrite Hn. reflexivity.
    - rewrite updatePID_disabled by exact He. exact Hn. }
  repeat split.
  - intros derivative dt st param He. apply U; [exact He|].
    rewrite mul_nan_l, add_nan_r. reflexivity.
  - exact P.
  - intros param ticks. induction ticks as [|[[e r] dt] ticks IH]; intros st Hn.
    + exact Hn.
    + cbn [run fold_left]. apply IH. unfold step. now apply P.
Qed.

Lemma nan_integral_is_permanent_witness :
  D.isnan (state_i (snd (updatePID D.quiet_NaN D.zero state_init
                                   limited_parameters (D.of_int 1)))) = true /\
  D.isnan (state_i (run limited_parameters
                        (mk_state D.zero D.quiet_NaN D.zero D.zero)
                        [(D.of_int 5, D.zero, D.of_int 1);
                         (D.of_int (-5), D.zero, D.of_int 1)])) = true.
Proof.
  split.
  - refine (proj1 nan_integral_is_permanent D.zero (D.of_int 1) state_init
              limited_parameters _). reflexivity.
  - refine (proj2 (proj2 nan_integral_is_permanent) limited_parameters _
              (mk_state D.zero D.quiet_NaN D.zero D.zero) _). reflexivity.
Defined.

(** C1. The starting hook does not reinitialise all four channel states.
    [reset] assigns the slot [x] twice and the slot [z] never: [x], [y] and
    [yaw] equal a freshly constructed state afterwards, the height slot
    keeps whatever it held.  After one tick that saw a height error of 2
    over [dt = 1], starting the controller again leaves [state_.z.i = 2]
    and [state_.z.p = 2], not the start values 0 and NaN. *)
Theorem reset_skips_height_state :
  (forall c : PoseController,
     state_.x (pid_state (reset c)) = state_init /\
     state_.y (pid_state (reset c)) = state_init /\
     state_.yaw (pid_state (reset c)) = state_init /\
     state_.z (pid_state (reset c)) = state_.z (pid_state c)) /\
  (forall (time : ros.Time) (c : PoseController),
     state_.z (pid_state (starting time c)) = state_.z (pid_state c) /\
     start_time_ (starting time c) = time) /\
  (forall (cos sin : double -> double) (time : ros.Time),
     state_.z (pid_state (starting time (flown cos sin))) =
       mk_state (D.of_int 2) (D.of_int 2) (D.opp D.zero) D.zero /\
     state_.z (pid_state (starting time (flown cos sin))) <> state_init).
Proof.
  split; [|split].
  - intros c. repeat split.
  - intros time c. split; reflexivity.
  - intros cos sin time.
    assert (E : state_.z (pid_state (starting time (flown cos sin))) =
                mk_state (D.of_int 2) (D.of_int 2) (D.opp D.zero) D.zero).
    { unfold flown, update.
      repeat match goal with
             | |- context [updatePID ?e ?d ?s ?p ?t] =>
                 destruct (updatePID e d s p t) eqn:?
             end.
      cbn [snd starting reset pid_state state_.z].
      match goal with
      | H : updatePID (error_height _) _ _ _ _ = _ |- _ =>
          vm_compute in H; injection H as _ <-
      end.
      reflexivity. }
    split; [exact E|]. rewrite E. discriminate.
Qed.

(** C7, as stated, fails on the controller's doubles.  At [yaw = 0], where
    [cos = 1] and [sin = 0], a horizontal gain of [2^1023] and a west error
    of 4 overflow the west output to infinity, and [linear.x] is
    [1 * 0 + 0 * inf], a NaN, not the north output 0.  At the double
    nearest to pi / 2 with unit gains and the errors (3, 4), [cos] is about
    6.12e-17, not 0, and [linear.y] is [-3 + 4 * cos], which rounds to
    -2.9999999999999996, not to the negated north output -3. *)
Lemma body_frame_identity_fails :
  (libm_cos D.zero = D.of_int 1 /\
   libm_sin D.zero = D.zero /\
   fst (updatePID D.zero D.zero state_init stiff_gain (D.of_int 1)) = D.zero /\
   fst (updatePID (D.of_int 4) D.zero state_init stiff_gain (D.of_int 1))
     = S754_infinity false /\
   D.isnan (geometry_msgs.x (geometry_msgs.linear
              (fst (update libm_cos libm_sin
                           (displaced D.zero (D.of_int 4) D.zero) stiff
                           (D.of_int 1))))) = true) /\
  (fst (updatePID (D.of_int 3) D.zero state_init unit_gain (D.of_int 1))
     = D.of_int 3 /\
   geometry_msgs.y (geometry_msgs.linear
     (fst (update libm_cos libm_sin
                  (displaced (D.of_int 3) (D.of_int 4) M_PI_2) constructed
                  (D.of_int 1))))
     = S754_finite true 6755399441055743 (-51) /\
   D.eqb (geometry_msgs.y (geometry_msgs.linear
            (fst (update libm_cos libm_sin
                         (displaced (D.of_int 3) (D.of_int 4) M_PI_2)
                         constructed (D.of_int 1)))))
         (D.opp (D.of_int 3)) = false).
Proof. vm_compute. repeat split. Qed.

(** C7, amended.  [update] stores [cos yaw * command_n + sin yaw * command_w]
    in [linear.x] and [-sin yaw * command_n + cos yaw * command_w] in
    [linear.y], computed in binary64, where [command_n] and [command_w] are
    what [updatePID] returned for the north and west channels.  When
    [cos yaw] is 1 and [sin yaw] is a zero, as at [yaw = 0], and both
    outputs are finite binary64 numbers, the rotation is the identity:
    [linear.x == command_n] and [linear.y == command_w]. *)
Theorem body_frame_rotation_on_doubles :
  forall (cos sin : double -> double) (m : measurement) (c : PoseController)
         (dt : double),
    let command_n :=
      fst (updatePID (error_n m)
             (geometry_msgs.x (geometry_msgs.linear (twist m)))
             (state_.x (pid_state c)) (parameters_.xy (pid_parameters c)) dt) in
    let command_w :=
      fst (updatePID (error_w m)
             (geometry_msgs.y (geometry_msgs.linear (twist m)))
             (state_.y (pid_state c)) (parameters_.xy (pid_parameters c)) dt) in
    let command := fst (update cos sin m c dt) in
    (geometry_msgs.x (geometry_msgs.linear command) =
       D.add (D.mul (cos (pose_yaw m)) command_n)
             (D.mul (sin (pose_yaw m)) command_w) /\
     geometry_msgs.y (geometry_msgs.linear command) =
       D.add (D.mul (D.opp (sin (pose_yaw m))) command_n)
             (D.mul (cos (pose_yaw m)) command_w)) /\
    (cos (pose_yaw m) = D.of_int 1 ->
     D.abs (sin (pose_yaw m)) = D.zero ->
     D.valid command_n = true -> D.isfinite command_n = true ->
     D.valid command_w = true -> D.isfinite command_w = true ->
     D.eqb (geometry_msgs.x (geometry_msgs.linear command)) command_n = true /\
     D.eqb (geometry_msgs.y (geometry_msgs.linear command)) command_w = true).
Proof.
  intros cos sin m c dt command_n command_w command.
  assert (F : geometry_msgs.x (geometry_msgs.linear command) =
                D.add (D.mul (cos (pose_yaw m)) command_n)
                      (D.mul (sin (pose_yaw m)) command_w) /\
              geometry_msgs.y (geometry_msgs.linear command) =
                D.add (D.mul (D.opp (sin (pose_yaw m))) command_n)
                      (D.mul (cos (pose_yaw m)) command_w)).
  { unfold command. rewrite update_channels. split; reflexivity. }
  split; [exact F|].
  intros Hc Hs Vn Fn Vw Fw. destruct F as [Fx Fy]. rewrite Fx, Fy, Hc.
  rewrite !one_times by assumption. split.
  - apply eqb_plus_zero_r; [now apply finite_not_nan|].
    now apply zero_times_finite.
  - apply eqb_zero_plus; [now apply finite_not_nan|].
    apply zero_times_finite; [|assumption]. now rewrite abs_opp.
Qed.

Lemma body_frame_rotation_on_doubles_witness :
  D.eqb (geometry_msgs.x (geometry_msgs.linear
           (fst (update libm_cos libm_sin
                        (displaced (D.of_int 3) (D.of_int 4) D.zero)
                        constructed (D.of_int 1)))))
        (fst (updatePID (D.of_int 3) D.zero state_init unit_gain (D.of_int 1)))
    = true /\
  D.eqb (geometry_msgs.y (geometry_msgs.linear
           (fst (update libm_cos libm_sin
                        (displaced (D.of_int 3) (D.of_int 4) D.zero)
                        constructed (D.of_int 1)))))
        (fst (updatePID (D.of_int 4) D.zero state_init unit_gain (D.of_int 1)))
    = true.
Proof.
  refine (proj2 (body_frame_rotation_on_doubles libm_cos libm_sin
                   (displaced (D.of_int 3) (D.of_int 4) D.zero) constructed
                   (D.of_int 1)) _ _ _ _ _ _);
    vm_compute; reflexivity.
Defined.

(** ** Further properties of the controller *)

(** *** Lifecycle *)

(** X1. [reset] is complete on a controller whose height state is still as
    constructed: after [starting], all four slots are fresh, so the missing
    assignment shows only from the second start on. *)
Theorem first_start_is_clean :
  forall (time : ros.Time) (c : PoseController),
    state_.z (pid_state c) = state_init ->
    pid_state (starting time c) =
      state_.mk state_init state_init state_init state_init.
Proof.
  intros time c H. cbn [starting reset pid_state state_.x state_.y state_.z
                        state_.yaw]. rewrite H. reflexivity.
Qed.

Lemma first_start_is_clean_witness :
  pid_state (starting (ros.mk_Time 7 0) constructed) =
    state_.mk state_init state_init state_init state_init.
Proof.
  refine (first_start_is_clean (ros.mk_Time 7 0) constructed _). reflexivity.
Defined.

(** X2. Starting never touches the parameters, records the time it is given,
    and starting twice is starting once at the later time. *)
Theorem starting_is_idempotent :
  forall (t1 t2 : ros.Time) (c : PoseController),
    pid_parameters (starting t1 c) = pid_parameters c /\
    start_time_ (starting t1 c) = t1 /\
    starting t2 (starting t1 c) = starting t2 c /\
    reset (reset c) = reset c.
Proof. intros t1 t2 c. repeat split. Qed.

(** *** One tick of the controller *)

(** X3. A tick never changes the parameters or the start time, commands no
    rotation about the x and y axes, and its vertical and yaw commands are
    never NaN, whatever was measured. *)
Theorem update_keeps_configuration :
  forall (cos sin : double -> double) (m : measurement) (c : PoseController)
         (dt : double),
    let command := fst (update cos sin m c dt) in
    let c' := snd (update cos sin m c dt) in
    pid_parameters c' = pid_parameters c /\
    start_time_ c' = start_time_ c /\
    geometry_msgs.x (geometry_msgs.angular command) = D.zero /\
    geometry_msgs.y (geometry_msgs.angular command) = D.zero /\
    D.isnan (geometry_msgs.z (geometry_msgs.linear command)) = false /\
    D.isnan (geometry_msgs.z (geometry_msgs.angular command)) = false.
Proof.
  intros cos sin m c dt. cbv zeta. rewrite update_channels. cbv zeta.
  cbn [fst snd pid_parameters start_time_ geometry_msgs.x geometry_msgs.y
       geometry_msgs.z geometry_msgs.linear geometry_msgs.angular].
  repeat split.
  - destruct (enabled (parameters_.z (pid_parameters c))) eqn:E.
    + rewrite updatePID_enabled by exact E. apply checknan_not_nan.
    + rewrite updatePID_disabled by exact E. reflexivity.
  - destruct (enabled (parameters_.yaw (pid_parameters c))) eqn:E.
    + rewrite updatePID_enabled by exact E. apply checknan_not_nan.
    + rewrite updatePID_disabled by exact E. reflexivity.
Qed.

(** X4. With all three parameter sets disabled a tick leaves the controller
    exactly as it was, commands 0 vertically and in yaw, and rotates the
    horizontal command (0, 0). *)
Theorem update_all_disabled :
  forall (cos sin : double -> double) (m : measurement) (c : PoseController)
         (dt : double),
    enabled (parameters_.xy (pid_parameters c)) = false ->
    enabled (parameters_.z (pid_parameters c)) = false ->
    enabled (parameters_.yaw (pid_parameters c)) = false ->
    snd (update cos sin m c dt) = c /\
    geometry_msgs.linear (fst (update cos sin m c dt)) =
      geometry_msgs.mk_Vector3
        (D.add (D.mul (cos (pose_yaw m)) D.zero) (D.mul (sin (pose_yaw m)) D.zero))
        (D.add (D.mul (D.opp (sin (pose_yaw m))) D.zero)
               (D.mul (cos (pose_yaw m)) D.zero))
        D.zero /\
    geometry_msgs.angular (fst (update cos sin m c dt)) =
      geometry_msgs.mk_Vector3 D.zero D.zero D.zero.
Proof.
  intros cos sin m c dt Hxy Hz Hyaw. rewrite update_channels. cbv zeta.
  rewrite !updatePID_disabled by assumption. cbn [fst snd].
  destruct c as [[sx sy sz syaw] par t]. repeat split.
Qed.

Lemma update_all_disabled_witness :
  snd (update (fun _ => D.of_int 1) (fun _ => D.zero) climbing
         (mk_PoseController
            (state_.mk state_init state_init state_init state_init)
            (parameters_.mk switched_off switched_off switched_off)
            (ros.mk_Time 0 0))
         (D.of_int 1)) =
  mk_PoseController
    (state_.mk state_init state_init state_init state_init)
    (parameters_.mk switched_off switched_off switched_off)
    (ros.mk_Time 0 0).
Proof.
  refine (proj1 (update_all_disabled (fun _ => D.of_int 1) (fun _ => D.zero)
                   climbing _ (D.of_int 1) _ _ _)); reflexivity.
Defined.

(** *** The PID step *)

Lemma clamp_output_fst param o :
  D.ltb D.zero (limit_output param) = true ->
  fst (clamp_output param o) =
    (let o1 := if D.ltb (limit_i param) o then limit_i param else o in
     if D.ltb o1 (D.opp (limit_i param)) then D.opp (limit_i param) else o1).
Proof.
  intros H. unfold clamp_output. rewrite H. cbv zeta.
  destruct (D.ltb (limit_i param) o);
    destruct (D.ltb _ (D.opp (limit_i param))); reflexivity.
Qed.

Lemma clamp_output_within param o :
  D.ltb (limit_i param) o = false ->
  D.ltb o (D.opp (limit_i param)) = false ->
  clamp_output param o = (o, 0%Z).
Proof.
  intros H1 H2. unfold clamp_output. rewrite H1, H2.
  destruct (D.ltb D.zero (limit_output param)); reflexivity.
Qed.

(** X5. The fallback derivative is a first-tick matter: after any call on an
    enabled channel whose error and measured rate were numbers, the next
    call with [dt > 0] takes the finite-difference form, from the error
    and the rate that call stored. *)
Theorem second_tick_differentiates :
  forall (param : parameters) (st : state)
         (e1 r1 dt1 e2 r2 dt2 : double),
    enabled param = true ->
    D.isnan e1 = false ->
    D.isnan r1 = false ->
    D.ltb D.zero dt2 = true ->
    state_d (run param st [(e1, r1, dt1); (e2, r2, dt2)]) =
      D.sub (D.add (D.div (D.sub e2 e1) dt2) r1) r2.
Proof.
  intros param st e1 r1 dt1 e2 r2 dt2 He H1 H2 H3.
  cbn [run fold_left step].
  rewrite (updatePID_enabled e2) by exact He. cbn [snd state_d].
  rewrite (updatePID_enabled e1) by exact He. cbn [snd].
  unfold differentiate at 1. cbn [state_p state_derivative].
  rewrite H1, H2, H3. reflexivity.
Qed.

Lemma second_tick_differentiates_witness :
  state_d (run unit_gain state_init
               [(D.of_int 2, D.zero, D.of_int 1);
                (D.of_int 1, D.zero, D.of_int 1)]) =
    D.sub (D.add (D.div (D.sub (D.of_int 1) (D.of_int 2)) (D.of_int 1)) D.zero)
          D.zero.
Proof.
  refine (second_tick_differentiates unit_gain state_init
            (D.of_int 2) D.zero (D.of_int 1) (D.of_int 1) D.zero (D.of_int 1)
            _ _ _ _); reflexivity.
Defined.

(** X6. The clamp comparisons are strict.  When the raw output is neither
    above [limit_i] nor below [-limit_i] (a value exactly at the limit
    included), it is returned as it is, NaN apart, no anti-windup
    correction runs, and the integral is the one of lines 131-136. *)
Theorem output_within_limit_passes :
  forall (error derivative dt : double) (st : state) (param : parameters),
    enabled param = true ->
    let output := raw_output param error (integrate error dt st param)
                             (differentiate error derivative dt st) in
    D.ltb (limit_i param) output = false ->
    D.ltb output (D.opp (limit_i param)) = false ->
    fst (updatePID error derivative st param dt) = checknan output /\
    state_i (snd (updatePID error derivative st param dt)) =
      integrate error dt st param /\
    antiwindup_runs error derivative st param dt = false.
Proof.
  intros error derivative dt st param He output H1 H2.
  unfold antiwindup_runs, antiwindup_of.
  rewrite updatePID_enabled by exact He. cbv zeta. fold output.
  rewrite clamp_output_within by assumption. cbn [fst snd state_i].
  rewrite antiwindup_applies_0, andb_false_r. repeat split.
Qed.

Lemma output_within_limit_passes_witness :
  fst (updatePID (D.of_int 1) D.zero state_init limited_parameters (D.of_int 1))
    = checknan (raw_output limited_parameters (D.of_int 1)
                  (integrate (D.of_int 1) (D.of_int 1) state_init
                             limited_parameters)
                  (differentiate (D.of_int 1) D.zero (D.of_int 1) state_init)) /\
  state_i (snd (updatePID (D.of_int 1) D.zero state_init limited_parameters
                          (D.of_int 1)))
    = integrate (D.of_int 1) (D.of_int 1) state_init limited_parameters /\
  antiwindup_runs (D.of_int 1) D.zero state_init limited_parameters (D.of_int 1)
    = false.
Proof.
  refine (output_within_limit_passes (D.of_int 1) D.zero (D.of_int 1) state_init
            limited_parameters _ _ _); vm_compute; reflexivity.
Defined.

Lemma clamp_negative_limit L o :
  D.ltb L D.zero = true -> D.isnan o = false ->
  (let o1 := if D.ltb L o then L else o in
   if D.ltb o1 (D.opp L) then D.opp L else o1) = D.opp L.
Proof. intros H1 H2. revert H1 H2. by_float_cases L o. Qed.

(** X7. A negative [limit_i] under a positive [limit_output] pins the output:
    whatever number the PID terms add up to, the first clamp or the second
    fires and the call returns [-limit_i]. *)
Theorem negative_limit_pins_output :
  forall (error derivative dt : double) (st : state) (param : parameters),
    enabled param = true ->
    D.ltb D.zero (limit_output param) = true ->
    D.ltb (limit_i param) D.zero = true ->
    D.isnan (raw_output param error (integrate error dt st param)
                        (differentiate error derivative dt st)) = false ->
    fst (updatePID error derivative st param dt) = D.opp (limit_i param).
Proof.
  intros error derivative dt st param He Ho Hl Hn.
  rewrite updatePID_enabled by exact He. cbv zeta. cbn [fst].
  rewrite clamp_output_fst by exact Ho.
  rewrite clamp_negative_limit by assumption.
  destruct (limit_i param); try discriminate; reflexivity.
Qed.

Lemma negative_limit_pins_output_witness :
  fst (updatePID D.zero D.zero state_init negative_limit_parameters (D.of_int 1))
    = D.opp (limit_i negative_limit_parameters).
Proof.
  refine (negative_limit_pins_output D.zero D.zero (D.of_int 1) state_init
            negative_limit_parameters _ _ _ _); vm_compute; reflexivity.
Defined.

(** X8. When the anti-windup correction runs, the output was clamped: an
    output limit is configured, [limit_i] is a number, the call returns
    exactly [limit_i] or [-limit_i], and the stored integral is the clamped
    integral less this tick's [error * dt]. *)
Theorem antiwindup_only_when_saturated :
  forall (error derivative dt : double) (st : state) (param : parameters),
    antiwindup_runs error derivative st param dt = true ->
    D.ltb D.zero (limit_output param) = true /\
    D.isnan (limit_i param) = false /\
    (fst (updatePID error derivative st param dt) = limit_i param \/
     fst (updatePID error derivative st param dt) = D.opp (limit_i param)) /\
    state_i (snd (updatePID error derivative st param dt)) =
      D.sub (integrate error dt st param) (D.mul error dt).
Proof.
  intros error derivative dt st param H.
  unfold antiwindup_runs, antiwindup_of in H.
  apply andb_true_iff in H. destruct H as [He H].
  rewrite updatePID_enabled by exact He. cbv zeta. cbn [fst snd state_i].
  rewrite H.
  set (o := raw_output _ _ _ _) in *.
  unfold clamp_output in *.
  destruct (D.ltb D.zero (limit_output param)); [|discriminate H].
  destruct (D.ltb (limit_i param) o) eqn:E1;
    destruct (D.ltb _ (D.opp (limit_i param))) eqn:E2;
    cbn [fst snd] in *; try discriminate H;
    destruct (limit_i param) eqn:EL; try discriminate;
    try (destruct o; discriminate);
    repeat split; auto.
Qed.

Lemma antiwindup_only_when_saturated_witness :
  D.ltb D.zero (limit_output limited_parameters) = true /\
  D.isnan (limit_i limited_parameters) = false /\
  (fst (updatePID (D.of_int 5) D.zero state_init limited_parameters (D.of_int 1))
     = limit_i limited_parameters \/
   fst (updatePID (D.of_int 5) D.zero state_init limited_parameters (D.of_int 1))
     = D.opp (limit_i limited_parameters)) /\
  state_i (snd (updatePID (D.of_int 5) D.zero state_init limited_parameters
                          (D.of_int 1)))
    = D.sub (integrate (D.of_int 5) (D.of_int 1) state_init limited_parameters)
            (D.mul (D.of_int 5) (D.of_int 1)).
Proof.
  refine (antiwindup_only_when_saturated (D.of_int 5) D.zero (D.of_int 1)
            state_init limited_parameters _); vm_compute; reflexivity.
Defined.

Lemma below_negative_limit L v :
  D.ltb D.zero L = true -> D.ltb v (D.opp L) = true -> D.ltb L v = false.
Proof. intros H1 H2. revert H1 H2. by_float_cases L v. Qed.

(** X9. The integral clamp of a channel with [limit_i > 0] is a clamp to the
    nearer bound: a sum above [limit_i] is stored as [limit_i], a sum below
    [-limit_i] as [-limit_i], and any other sum, one exactly at a bound
    included, is stored unchanged. *)
Theorem integral_clamp_cases :
  forall (error dt : double) (st : state) (param : parameters),
    D.ltb D.zero (limit_i param) = true ->
    let sum := D.add (state_i st) (D.mul error dt) in
    (D.ltb (limit_i param) sum = true ->
     integrate error dt st param = limit_i param) /\
    (D.ltb sum (D.opp (limit_i param)) = true ->
     integrate error dt st param = D.opp (limit_i param)) /\
    (D.ltb (limit_i param) sum = false ->
     D.ltb sum (D.opp (limit_i param)) = false ->
     integrate error dt st param = sum).
Proof.
  intros error dt st param HL sum. unfold integrate. fold sum. rewrite HL.
  cbv zeta. destruct (limit_within_itself _ HL) as (H1 & _ & _).
  repeat split.
  - intros H. rewrite H, H1. reflexivity.
  - intros H. rewrite (below_negative_limit _ _ HL H), H. reflexivity.
  - intros Ha Hb. rewrite Ha, Hb. reflexivity.
Qed.

Lemma integral_clamp_cases_witness :
  integrate (D.of_int 5) (D.of_int 1) state_init limited_parameters =
    limit_i limited_parameters.
Proof.
  refine (proj1 (integral_clamp_cases (D.of_int 5) (D.of_int 1) state_init
                   limited_parameters _) _); vm_compute; reflexivity.
Defined.

(** *** Runs of a channel *)

(** X10. A disabled channel is frozen: over any number of ticks its state is
    the state it had. *)
Theorem disabled_run_is_frozen :
  forall (param : parameters) (ticks : list tick) (st : state),
    enabled param = false ->
    run param st ticks = st.
Proof.
  intros param ticks st H. induction ticks as [|[[e r] dt] ticks IH].
  - reflexivity.
  - cbn [run fold_left step]. rewrite updatePID_disabled by exact H.
    exact IH.
Qed.

Lemma disabled_run_is_frozen_witness :
  run switched_off
      (mk_state (D.of_int 2) (D.of_int 7) D.zero D.zero)
      [(D.of_int 5, D.zero, D.of_int 1); (D.of_int 3, D.zero, D.of_int 1)]
  = mk_state (D.of_int 2) (D.of_int 7) D.zero D.zero.
Proof.
  refine (disabled_run_is_frozen _ _ _ _). reflexivity.
Defined.

(** X11. Without limits the integral winds up freely: on an enabled channel
    whose [limit_i] and [limit_output] are not positive (the defaults),
    the stored integral after any run is the running sum of [error * dt]. *)
Theorem unlimited_integral_is_running_sum :
  forall (param : parameters) (ticks : list tick) (st : state),
    enabled param = true ->
    D.ltb D.zero (limit_i param) = false ->
    D.ltb D.zero (limit_output param) = false ->
    state_i (run param st ticks) = running_sum (state_i st) ticks.
Proof.
  intros param ticks st He Hi Ho. revert st.
  induction ticks as [|[[e r] dt] ticks IH]; intros st.
  - reflexivity.
  - cbn [run running_sum fold_left]. 
    change (state_i (run param (step param st (e, r, dt)) ticks) =
            running_sum (D.add (state_i st) (D.mul e dt)) ticks).
    rewrite IH. f_equal.
    rewrite step_state_i by exact He.
    rewrite no_output_limit_no_antiwindup by exact Ho.
    unfold integrate. rewrite Hi. reflexivity.
Qed.

Lemma unlimited_integral_is_running_sum_witness :
  state_i (run unit_gain state_init
               [(D.of_int 5, D.zero, D.of_int 1);
                (D.of_int 3, D.zero, D.of_int 1)]) =
    running_sum (state_i state_init)
                [(D.of_int 5, D.zero, D.of_int 1);
                 (D.of_int 3, D.zero, D.of_int 1)].
Proof.
  refine (unlimited_integral_is_running_sum unit_gain _ state_init _ _ _);
    reflexivity.
Defined.

(** *** Parameter loading *)

Lemma zero_times x : D.abs (checknan (D.mul D.zero x)) = D.zero.
Proof. destruct x as [[]|[]| |[] ? ?]; reflexivity. Qed.

Lemma zero_plus_zero a b :
  D.abs (checknan a) = D.zero -> D.abs (checknan b) = D.zero ->
  D.abs (checknan (D.add a b)) = D.zero.
Proof.
  destruct a as [[]|[]| |[] ? ?], b as [[]|[]| |[] ? ?];
    cbn; intros; try discriminate; reflexivity.
Qed.

Lemma initParameters_empty (NodeHandle : Type)
    (getParam_bool : NodeHandle -> string -> option bool)
    (getParam_double : NodeHandle -> string -> option double)
    (param_nh : NodeHandle) :
  (forall key, getParam_bool param_nh key = None) ->
  (forall key, getParam_double param_nh key = None) ->
  initParameters getParam_bool getParam_double param_nh = default_parameters.
Proof.
  intros Hb Hd. unfold initParameters, getParam. rewrite Hb, !Hd. reflexivity.
Qed.

Lemma default_channel error derivative dt st :
  D.abs (fst (updatePID error derivative st default_parameters dt)) = D.zero /\
  state_i (snd (updatePID error derivative st default_parameters dt)) =
    D.add (state_i st) (D.mul error dt).
Proof.
  rewrite updatePID_enabled by reflexivity. cbv zeta.
  rewrite clamp_output_unlimited by reflexivity. cbn [fst snd state_i].
  rewrite antiwindup_applies_0. split; [|reflexivity].
  unfold raw_output. cbn [default_parameters k_p k_i k_d].
  repeat apply zero_plus_zero; apply zero_times.
Qed.

(** X12. A namespace that stores none of the six keys loads the defaults: the
    channel is enabled, its gains are 0 and it has no limits.  Such a
    channel commands nothing, the output of every call is a zero, while
    its integral still accumulates [error * dt] unclamped. *)
Theorem unconfigured_channel_commands_nothing :
  forall (NodeHandle : Type)
         (getParam_bool : NodeHandle -> string -> option bool)
         (getParam_double : NodeHandle -> string -> option double)
         (param_nh : NodeHandle)
         (error derivative dt : double) (st : state),
    (forall key, getParam_bool param_nh key = None) ->
    (forall key, getParam_double param_nh key = None) ->
    let param := initParameters getParam_bool getParam_double param_nh in
    param = default_parameters /\
    D.abs (fst (updatePID error derivative st param dt)) = D.zero /\
    state_i (snd (updatePID error derivative st param dt)) =
      D.add (state_i st) (D.mul error dt).
Proof.
  intros NodeHandle gb gd nh error derivative dt st Hb Hd param.
  unfold param. rewrite initParameters_empty by assumption.
  split; [reflexivity | apply default_channel].
Qed.

Lemma unconfigured_channel_commands_nothing_witness :
  initParameters empty_server_bool empty_server tt = default_parameters /\
  D.abs (fst (updatePID (D.of_int 5) (D.of_int 3) state_init
                (initParameters empty_server_bool empty_server tt)
                (D.of_int 1))) = D.zero /\
  state_i (snd (updatePID (D.of_int 5) (D.of_int 3) state_init
                  (initParameters empty_server_bool empty_server tt)
                  (D.of_int 1))) =
    D.add (state_i state_init) (D.mul (D.of_int 5) (D.of_int 1)).
Proof.
  refine (unconfigured_channel_commands_nothing unit empty_server_bool
            empty_server tt (D.of_int 5) (D.of_int 3) (D.of_int 1) state_init
            _ _); reflexivity.
Defined.

(** X13. A controller initialised from a parameter server that stores nothing
    reports success and then commands a zero climb rate and a zero yaw rate
    on every tick, whatever is measured and whatever state it is in. *)
Theorem unconfigured_controller_holds_still :
  forall (NodeHandle : Type)
         (getParam_bool : NodeHandle -> string -> option bool)
         (getParam_double : NodeHandle -> string -> option double)
         (child : NodeHandle -> string -> NodeHandle)
         (controller_nh : NodeHandle) (c : PoseController)
         (cos sin : double -> double) (m : measurement) (dt : double),
    (forall nh key, getParam_bool nh key = None) ->
    (forall nh key, getParam_double nh key = None) ->
    let r := init getParam_bool getParam_double child controller_nh c in
    let command := fst (update cos sin m (snd r) dt) in
    fst r = true /\
    D.abs (geometry_msgs.z (geometry_msgs.linear command)) = D.zero /\
    D.abs (geometry_msgs.z (geometry_msgs.angular command)) = D.zero.
Proof.
  intros NodeHandle gb gd child nh c cos sin m dt Hb Hd. cbv zeta.
  rewrite update_channels. cbv zeta.
  cbn [init fst snd pid_parameters pid_state parameters_.z parameters_.yaw
       geometry_msgs.z geometry_msgs.linear geometry_msgs.angular].
  rewrite !initParameters_empty by (intros; auto).
  repeat split; apply default_channel.
Qed.

Lemma unconfigured_controller_holds_still_witness :
  fst (init empty_server_bool empty_server (fun nh _ => nh) tt constructed)
    = true /\
  D.abs (geometry_msgs.z (geometry_msgs.linear
           (fst (update (fun _ => D.of_int 1) (fun _ => D.zero) climbing
                   (snd (init empty_server_bool empty_server (fun nh _ => nh)
                              tt constructed))
                   (D.of_int 1))))) = D.zero /\
  D.abs (geometry_msgs.z (geometry_msgs.angular
           (fst (update (fun _ => D.of_int 1) (fun _ => D.zero) climbing
                   (snd (init empty_server_bool empty_server (fun nh _ => nh)
                              tt constructed))
                   (D.of_int 1))))) = D.zero.
Proof.
  refine (unconfigured_controller_holds_still unit empty_server_bool
            empty_server (fun nh _ => nh) tt constructed
            (fun _ => D.of_int 1) (fun _ => D.zero) climbing (D.of_int 1) _ _);
    reflexivity.
Defined.
